(** * geemap.colormaps: palettes sampled from a colormap engine

    A shallow embedding of [src/geemap/colormaps.py].  The module is a thin
    layer over two external libraries: the colormap engine (matplotlib's
    registry, [plt.cm.get_cmap], [plt.colormaps], [mpl.colors.rgb2hex]) and
    the frozen dictionary wrapper [Box].  The engine is a record whose
    fields stand for the library entry points the module calls; what the
    module itself computes (the list comprehension of [get_palette], the
    key construction and the two nested loops that fill [__palette_dict],
    the call sequence of [plot_colormaps]) is written out as functions. *)

From Stdlib Require Import ZArith String Ascii List DecimalString QArith.
From stdpp Require Import gmap strings list fin_maps.

Local Open Scope Z_scope.
Local Open Scope string_scope.

(** ** Exceptions and fallible computations *)

(** The exceptions that can leave the module.  The names follow the error
    taxonomy of the specification; [TypeError] is Python's own exception
    for iterating a value that is not iterable, [BoxError] is the one the
    frozen wrapper raises on a write. *)
Inductive exn : Type :=
  | UnknownRampError
  | InvalidClassCountError
  | RenderingError
  | TypeError
  | BoxError.

Inductive result (A : Type) : Type :=
  | Ok (a : A)
  | Raise (e : exn).
Arguments Ok {A} a.
Arguments Raise {A} e.

(** Sequencing: an exception raised by the first computation propagates. *)
#[global] Instance result_bind : MBind result := fun A B k r =>
  match r with
  | Ok a => k a
  | Raise e => Raise e
  end.

(** ** Python string primitives used by the module *)

Module Py.

(** [str(i)] for an integer: the decimal numeral, with a leading minus
    sign for negative numbers. *)
Definition str (i : Z) : string := NilZero.string_of_int (Z.to_int i).

Fixpoint zeros (n : nat) : string :=
  match n with
  | O => EmptyString
  | S n' => String "0" (zeros n')
  end.

Definition is_sign (c : ascii) : bool :=
  (Ascii.eqb c "+" || Ascii.eqb c "-")%bool.

(** [s.zfill(width)]: pad on the left with zeros up to [width]; a leading
    sign stays in front of the padding. *)
Definition zfill (width : nat) (s : string) : string :=
  let pad := zeros (width - String.length s)%nat in
  match s with
  | String c rest => if is_sign c then String c (pad ++ rest) else pad ++ s
  | EmptyString => pad
  end.

(** [s[1:]]: the string without its first character (empty stays empty). *)
Definition slice_from_1 (s : string) : string :=
  match s with
  | EmptyString => EmptyString
  | String _ rest => rest
  end.

(** [range(lo, hi)] as a list. *)
Definition range (lo hi : Z) : list Z :=
  map (fun k => lo + Z.of_nat k) (seq 0 (Z.to_nat (hi - lo))).

(** [enumerate(l)]. *)
Definition enumerate {A : Type} (l : list A) : list (nat * A) :=
  zip (seq 0 (length l)) l.

End Py.

(** ** Hex colours *)

Definition is_hex_digit (c : ascii) : bool :=
  let n := nat_of_ascii c in
  ((48 <=? n) && (n <=? 57) || (65 <=? n) && (n <=? 70)
   || (97 <=? n) && (n <=? 102))%nat%bool.

(** A Hex Color: exactly six characters, all of them hexadecimal digits. *)
Definition is_hex_color (s : string) : bool :=
  ((String.length s =? 6)%nat && forallb is_hex_digit (list_ascii_of_string s))%bool.

(** ** The colormap engine *)

Section Engine.

(** A colour stop as the engine hands it out (an RGBA tuple of floats);
    the module never looks inside, it only passes it on to [rgb2hex]. *)
Context {rgba : Type}.

(** A colormap object: [cmap.N] and the call [cmap(i)]. *)
Record Colormap : Type := {
  N : Z;
  call : Z -> rgba
}.

Record Engine : Type := {
  (** [plt.colormaps()] *)
  colormaps : list string;
  (** [plt.cm.get_cmap(name, lut)], also [plt.get_cmap] *)
  get_cmap : option string -> option Z -> result Colormap;
  (** [mpl.colors.rgb2hex(c)] *)
  rgb2hex : rgba -> string
}.

Variable e : Engine.

(** [get_palette], lines 9-21. *)
Definition get_palette (cmap_name : option string) (n_class : option Z)
  : result (list string) :=
  cmap ← get_cmap e cmap_name n_class;
  Ok (map (fun i => Py.slice_from_1 (rgb2hex e (call cmap i)))
          (Py.range 0 (N cmap))).

(** [list_colormaps], lines 24-30. *)
Definition list_colormaps : list string := colormaps e.

End Engine.

Arguments Colormap : clear implicits.
Arguments Engine : clear implicits.

(** ** The palette dictionary *)

(** A value of [__palette_dict]: a flat colour list (the hand-authored
    entries) or an inner dictionary from class-count key to colour list
    (the entries the loop derives from the engine). *)
Inductive entry : Type :=
  | Flat (colors : list string)
  | Graded (color_dict : gmap string (list string)).

Definition ndvi : list string :=
  [ "FFFFFF"; "CE7E45"; "DF923D"; "F1B555"; "FCD163"; "99B718"; "74A901";
    "66A000"; "529400"; "3E8601"; "207401"; "056201"; "004C00"; "023B01";
    "012E01"; "011D01"; "011301" ].

Definition ndwi : list string :=
  [ "#ece7f2"; "#d0d1e6"; "#a6bddb"; "#74a9cf"; "#3690c0"; "#0570b0";
    "#045a8d"; "#023858" ].

Definition dem : list string :=
  [ "006633"; "E5FFCC"; "662A00"; "D8D8D8"; "F5F5F5" ].

(** The dictionary literal of lines 99-130, before the loop runs. *)
Definition __palette_dict_literal : gmap string entry :=
  <["dem" := Flat dem]> (<["ndwi" := Flat ndwi]> (<["ndvi" := Flat ndvi]> ∅)).

(** The class-count key of line 136: ["n" + str(i).zfill(2)]. *)
Definition key (i : Z) : string := "n" ++ Py.zfill 2 (Py.str i).

Section Catalog.

Context {rgba : Type}.
Variable e : Engine rgba.

(** The inner loop, lines 135-138, started from the dictionary
    [color_dict]; an exception of [get_palette] ends it. *)
Fixpoint fill_color_dict (cmap_name : string) (counts : list Z)
    (color_dict : gmap string (list string))
  : result (gmap string (list string)) :=
  match counts with
  | [] => Ok color_dict
  | i :: counts' =>
      let name := key i in
      colors ← get_palette e (Some cmap_name) (Some i);
      fill_color_dict cmap_name counts' (<[name := colors]> color_dict)
  end.

(** The outer loop, lines 132-139, over the pairs of
    [enumerate(list_colormaps())]; the guard of line 133 calls
    [list_colormaps()] again. *)
Fixpoint fill_palette_dict (items : list (nat * string))
    (palette_dict : gmap string entry) : result (gmap string entry) :=
  match items with
  | [] => Ok palette_dict
  | (index, cmap_name) :: items' =>
      if (index <? length (list_colormaps e))%nat then
        color_dict ← fill_color_dict cmap_name (Py.range 3 13) ∅;
        fill_palette_dict items' (<[cmap_name := Graded color_dict]> palette_dict)
      else fill_palette_dict items' palette_dict
  end.

(** [__palette_dict] once the module body has run (lines 99-139). *)
Definition __palette_dict : result (gmap string entry) :=
  fill_palette_dict (Py.enumerate (list_colormaps e)) __palette_dict_literal.

End Catalog.

(** ** The published catalog: a frozen [Box] *)

Module Box.

(** Modelled from the spec: the class [Box] of the python-box package,
    which line 142 instantiates and whose source is not part of this
    module.  A box holds the items of the dictionary it was built from and
    the flag [frozen_box]; the specification (section 3 and step 5 of
    section 4.4) asks that a frozen catalog reject every write.  A box
    that is not frozen behaves like the dictionary it wraps. *)
Record t (V : Type) : Type := {
  frozen_box : bool;
  items : gmap string V
}.
Arguments frozen_box {V} _.
Arguments items {V} _.

(** Modelled from the spec: [box[k]], a read of the wrapped items. *)
Definition getitem {V : Type} (b : t V) (k : string) : option V :=
  items b !! k.

(** Modelled from the spec: [box[k] = v], giving the outcome and the box
    afterwards; a frozen box raises and stays as it is. *)
Definition setitem {V : Type} (b : t V) (k : string) (v : V)
  : result unit * t V :=
  if frozen_box b then (Raise BoxError, b)
  else (Ok tt, {| frozen_box := frozen_box b; items := <[k := v]> (items b) |}).

(** Modelled from the spec: [del box[k]], giving the outcome and the box
    afterwards; a frozen box raises and stays as it is. *)
Definition delitem {V : Type} (b : t V) (k : string) : result unit * t V :=
  if frozen_box b then (Raise BoxError, b)
  else (Ok tt, {| frozen_box := frozen_box b; items := delete k (items b) |}).

End Box.

(** A value of the published catalog: the conversion of line 142 wraps
    every inner dictionary in a box with the same configuration.  A colour
    sequence is kept as the sequence of its elements, whichever immutable
    container the wrapper stores it in. *)
Inductive box_entry : Type :=
  | BoxFlat (colors : list string)
  | BoxGraded (inner : Box.t (list string)).

Definition box_value (frozen : bool) (v : entry) : box_entry :=
  match v with
  | Flat colors => BoxFlat colors
  | Graded color_dict =>
      BoxGraded {| Box.frozen_box := frozen; Box.items := color_dict |}
  end.

(** Modelled from the spec: the constructor [Box(d, frozen_box=frozen)],
    which keeps every item of [d] under its name. *)
Definition Box_of_dict (d : gmap string entry) (frozen : bool) : Box.t box_entry :=
  {| Box.frozen_box := frozen; Box.items := box_value frozen <$> d |}.

(** [palettes], line 142; building it fails when the loop before it did. *)
Definition palettes {rgba : Type} (e : Engine rgba) : result (Box.t box_entry) :=
  d ← __palette_dict e;
  Ok (Box_of_dict d true).

(** ** What the module expects from the engine *)

Section EngineContract.

Context {rgba : Type}.
Variable e : Engine rgba.

(** Sampling a listed ramp with a class count between 3 and 12 gives a
    colormap with exactly that many stops. *)
Definition resamples_listed : Prop :=
  ∀ (r : string) (c : Z), r ∈ list_colormaps e → (3 ≤ c ≤ 12)%Z →
    ∃ cmap, get_cmap e (Some r) (Some c) = Ok cmap ∧ N cmap = c.

(** [rgb2hex] formats every stop as a marker character followed by six
    hexadecimal digits. *)
Definition formats_hex : Prop :=
  ∀ c, ∃ body, rgb2hex e c = String "#" body ∧ is_hex_color body = true.

(** A name that is not listed is rejected by the lookup. *)
Definition rejects_unknown : Prop :=
  ∀ (r : string) n, r ∉ list_colormaps e → get_cmap e (Some r) n = Raise UnknownRampError.

End EngineContract.

(** ** A stub engine *)

Module Stub.

Definition hexdigit (d : Z) : ascii :=
  match String.get (Z.to_nat (d mod 16)) "0123456789abcdef" with
  | Some c => c
  | None => "0"%char
  end.

(** Two lower-case hexadecimal digits of a channel value. *)
Definition hex2 (v : Z) : string :=
  String (hexdigit (v / 16)) (String (hexdigit v) EmptyString).

(** Grey ramps: a stop is its grey level. *)
Definition grey_hex (g : Z) : string :=
  "#" ++ hex2 g ++ hex2 g ++ hex2 g.

Definition grey (n i : Z) : Z :=
  if (n <=? 1)%Z then 0 else (i * 255) / (n - 1).

Definition grey_cmap (names : list string) (name : option string)
    (lut : option Z) : result (Colormap Z) :=
  let size := default 256 lut in
  match name with
  | Some r =>
      if bool_decide (r ∈ names) then
        if (0 <? size)%Z then Ok {| N := size; call := grey size |}
        else Raise InvalidClassCountError
      else Raise UnknownRampError
  | None =>
      if (0 <? size)%Z then Ok {| N := size; call := grey size |}
      else Raise InvalidClassCountError
  end.

(** The engine that registers exactly [names], each as a grey ramp. *)
Definition engine (names : list string) : Engine Z :=
  {| colormaps := names; get_cmap := grey_cmap names; rgb2hex := grey_hex |}.

End Stub.

(** ** The rendering backend and [plot_colormaps] *)

(** Floating-point arithmetic is left to the platform: the module only
    builds the expressions below from its arguments and from literals. *)
Class FloatOps (F : Type) : Type := {
  (** [x * n] for a float and an integer *)
  fmul_int : F -> Z -> F;
  fadd : F -> F -> F;
  fsub : F -> F -> F;
  fdiv : F -> F -> F;
  (** a decimal literal of the source *)
  flit : Q -> F;
  (** [ax.get_position().bounds] of row [i] in a column of [n] rows *)
  row_bounds : nat -> nat -> F * F * F * F;
  (** whether the backend accepts a figure of this width and height; it
      refuses a size that is negative or not finite *)
  figsize_ok : F -> F -> bool
}.

Module Plt.
Section Backend.

Context {F : Type} `{FloatOps F}.

(** The picture [imshow] puts on an axes: the shape of the data and the
    name of the colormap that colours it. *)
Record Image : Type := {
  shape : nat * nat;
  cmap : string
}.

Record Axes : Type := {
  image : option Image;
  axis_on : bool
}.

Record Text : Type := {
  x : F;
  y : F;
  s : string;
  fontsize : Z
}.

Record Figure : Type := {
  figsize : F * F;
  axes : list Axes;
  texts : list Text;
  (** top, bottom, left, right of [subplots_adjust] *)
  adjust : option (F * F * F * F)
}.

(** What [plt.subplots] returns next to the figure.  An axes is named by
    its row in the figure. *)
Inductive axes_obj : Type :=
  | OneAxes (ax : nat)
  | AxesArray (axs : list nat).

Definition blank : Axes := {| image := None; axis_on := true |}.

(** Modelled from the spec: [plt.subplots(nrows=nrows, figsize=figsize)]
    belongs to the rendering backend, not to this module.  It creates the
    figure first and raises when the backend refuses the size; then, with
    the default [squeeze=True], it hands back a single axes object for one
    row and an array of axes for more rows; a number of rows that is not
    positive is invalid geometry. *)
Definition subplots (nrows : nat) (size : F * F) : result (Figure * axes_obj) :=
  let fig := {| figsize := size; axes := replicate nrows blank;
                texts := []; adjust := None |} in
  if figsize_ok size.1 size.2 then
    match nrows with
    | O => Raise RenderingError
    | 1%nat => Ok (fig, OneAxes 0)
    | _ => Ok (fig, AxesArray (seq 0 nrows))
    end
  else Raise RenderingError.

(** Iterating over what [subplots] returned, as [zip] and [for] do: an
    axes object is not iterable. *)
Definition iter (a : axes_obj) : result (list nat) :=
  match a with
  | OneAxes _ => Raise TypeError
  | AxesArray axs => Ok axs
  end.

Definition subplots_adjust (top bottom left right : F) (fig : Figure) : Figure :=
  {| figsize := figsize fig; axes := axes fig; texts := texts fig;
     adjust := Some (top, bottom, left, right) |}.

Definition on_axes (f : Axes -> Axes) (ax : nat) (fig : Figure) : Figure :=
  {| figsize := figsize fig; axes := alter f ax (axes fig);
     texts := texts fig; adjust := adjust fig |}.

(** [ax.imshow(data, aspect="auto", cmap=...)] *)
Definition imshow (data : nat * nat) (name : string) : nat -> Figure -> Figure :=
  on_axes (fun a => {| image := Some {| shape := data; cmap := name |};
                       axis_on := axis_on a |}).

(** [ax.set_axis_off()] *)
Definition set_axis_off : nat -> Figure -> Figure :=
  on_axes (fun a => {| image := image a; axis_on := false |}).

(** [fig.text(x, y, s, va="center", ha="right", fontsize=...)] *)
Definition text (x_text y_text : F) (name : string) (size : Z) (fig : Figure)
  : Figure :=
  {| figsize := figsize fig; axes := axes fig;
     texts := texts fig ++ [ {| x := x_text; y := y_text; s := name;
                                fontsize := size |} ];
     adjust := adjust fig |}.

Context {rgba : Type}.
Variable e : Engine rgba.

(** The first loop of [plot_colormaps], lines 84-90, over the pairs of
    [zip(axes, cmap_list)] in a figure of [nrows] rows. *)
Fixpoint draw_rows (nrows : nat) (gradient : nat * nat)
    (pairs : list (nat * string)) (fig : Figure) : result Figure :=
  match pairs with
  | [] => Ok fig
  | (ax, name) :: pairs' =>
      _ ← get_cmap e (Some name) None;
      let fig := imshow gradient name ax fig in
      let fig := set_axis_off ax fig in
      let '(pos0, pos1, _, pos3) := row_bounds nrows ax in
      let x_text := fsub pos0 (flit (1 # 100)) in
      let y_text := fadd pos1 (fdiv pos3 (flit 2)) in
      let fig := text x_text y_text name 12 fig in
      draw_rows nrows gradient pairs' fig
  end.

(** [plot_colormaps], lines 69-96; the result is the figure that
    [plt.show()] displays. *)
Definition plot_colormaps (width height : F) : result Figure :=
  let cmap_list := list_colormaps e in
  let nrows := length cmap_list in
  '(fig, axes) ← subplots nrows (width, fmul_int height (Z.of_nat nrows));
  let fig := subplots_adjust (flit (95 # 100)) (flit (1 # 100))
                             (flit (2 # 10)) (flit (99 # 100)) fig in
  let gradient := (2%nat, 256%nat) in
  axs ← iter axes;
  fig ← draw_rows nrows gradient (zip axs cmap_list) fig;
  axs ← iter axes;
  Ok (foldl (fun fig ax => set_axis_off ax fig) fig axs).

End Backend.

Arguments Text : clear implicits.
Arguments Figure : clear implicits.

End Plt.

(** Rational arithmetic as one instance of the float operations, rows
    stacked evenly from the top. *)
#[global] Instance Q_FloatOps : FloatOps Q := {|
  fmul_int := fun x n => Qmult x (inject_Z n);
  fadd := Qplus;
  fsub := Qminus;
  fdiv := Qdiv;
  flit := fun q => q;
  row_bounds := fun n i =>
    (2 # 10, Qdiv (inject_Z (Z.of_nat (n - 1 - i))) (inject_Z (Z.of_nat n)),
     79 # 100, Qdiv 1 (inject_Z (Z.of_nat n)));
  figsize_ok := fun w h => (Qle_bool 0 w && Qle_bool 0 h)%bool
|}.

(** ** Notions used to state the properties *)

(** A row once the first loop has drawn it: the gradient coloured by the
    ramp of that row, axis decorations off. *)
Definition drawn (gradient : nat * nat) (name : string) : Plt.Axes :=
  {| Plt.image := Some {| Plt.shape := gradient; Plt.cmap := name |};
     Plt.axis_on := false |}.

(** The figure [plot_colormaps] starts from: [nrows] blank rows, the
    requested size, the margins of line 79. *)
Definition stacked {F : Type} `{FloatOps F} (width height : F) (nrows : nat)
  : Plt.Figure F :=
  Plt.subplots_adjust (flit (95 # 100)) (flit (1 # 100)) (flit (2 # 10))
    (flit (99 # 100))
    {| Plt.figsize := (width, fmul_int height (Z.of_nat nrows));
       Plt.axes := replicate nrows Plt.blank;
       Plt.texts := []; Plt.adjust := None |}.


(** Every hand-authored name that the engine also enumerates is published
    with its literal colour list. *)
Definition hand_authored_wins {rgba : Type} (e : Engine rgba) : Prop :=
  ∀ p (name : string) colors,
    palettes e = Ok p → name ∈ list_colormaps e →
    __palette_dict_literal !! name = Some (Flat colors) →
    Box.getitem p name = Some (BoxFlat colors).

(** The catalog publishes the literal list under ["ndvi"]. *)
Definition ndvi_entry_is_literal {rgba : Type} (e : Engine rgba) : Prop :=
  ∀ p, palettes e = Ok p → Box.getitem p "ndvi" = Some (BoxFlat ndvi).

(** The label the first loop of [plot_colormaps] writes for the ramp
    [name] drawn in row [ax] of [nrows]: to the left of the row, centred on
    it, at font size 12. *)
Definition label {F : Type} `{FloatOps F} (nrows : nat) (ax : nat)
    (name : string) : Plt.Text F :=
  let '(pos0, pos1, _, pos3) := row_bounds nrows ax in
  {| Plt.x := fsub pos0 (flit (1 # 100));
     Plt.y := fadd pos1 (fdiv pos3 (flit 2));
     Plt.s := name;
     Plt.fontsize := 12 |}.

(** Two engines that differ at most in the order and the repetitions of
    the names they enumerate. *)
Definition same_ramps {rgba : Type} (e1 e2 : Engine rgba) : Prop :=
  get_cmap e1 = get_cmap e2 ∧ rgb2hex e1 = rgb2hex e2
  ∧ ∀ r : string, r ∈ list_colormaps e1 ↔ r ∈ list_colormaps e2.

(** An engine that enumerates the names [listed] while its lookup knows
    the names [known], each as a grey ramp. *)
Definition listing_engine (listed known : list string) : Engine Z :=
  {| colormaps := listed; get_cmap := Stub.grey_cmap known;
     rgb2hex := Stub.grey_hex |}.

(** * Properties *)

(** ** Fallible computations *)

Lemma bind_Ok_inv {A B : Type} (r : result A) (k : A → result B) (b : B) :
  r ≫= k = Ok b → ∃ a, r = Ok a ∧ k a = Ok b.
Proof. destruct r as [a |]; [by exists a | done]. Qed.

(** ** Python primitives *)

Lemma range_length lo hi : length (Py.range lo hi) = Z.to_nat (hi - lo).
Proof. unfold Py.range. by rewrite length_map, length_seq. Qed.

Lemma elem_of_range lo hi (i : Z) : i ∈ Py.range lo hi ↔ (lo ≤ i < hi)%Z.
Proof.
  unfold Py.range. rewrite list_elem_of_fmap. split.
  - intros (k & -> & Hk). apply elem_of_seq in Hk. lia.
  - intros Hi. exists (Z.to_nat (i - lo)). split; [lia |].
    apply elem_of_seq. lia.
Qed.

Lemma enumerate_snd {A : Type} (l : list A) : (Py.enumerate l).*2 = l.
Proof. unfold Py.enumerate. apply snd_zip. by rewrite length_seq. Qed.

Lemma enumerate_index {A : Type} (l : list A) :
  Forall (fun p => (p.1 < length l)%nat) (Py.enumerate l).
Proof.
  apply Forall_forall. intros [i a] Hin. unfold Py.enumerate in Hin.
  apply elem_of_zip_l in Hin. apply elem_of_seq in Hin. simpl. lia.
Qed.

(** The ten class-count keys, computed by [key]. *)
Lemma keys_3_to_12 :
  key <$> Py.range 3 13 =
  ["n03"; "n04"; "n05"; "n06"; "n07"; "n08"; "n09"; "n10"; "n11"; "n12"].
Proof. reflexivity. Qed.

Lemma keys_3_to_12_NoDup : NoDup (key <$> Py.range 3 13).
Proof.
  rewrite keys_3_to_12.
  apply (bool_decide_unpack (NoDup _)). by vm_compute.
Qed.

(** ** The sampler *)

Section SamplerFacts.

Context {rgba : Type}.
Variable e : Engine rgba.

Lemma get_palette_ok cmap_name n_class cmap :
  get_cmap e cmap_name n_class = Ok cmap →
  get_palette e cmap_name n_class =
    Ok (map (fun i => Py.slice_from_1 (rgb2hex e (call cmap i)))
            (Py.range 0 (N cmap))).
Proof. intros Hc. unfold get_palette. by rewrite Hc. Qed.

Lemma get_palette_raise cmap_name n_class err :
  get_cmap e cmap_name n_class = Raise err →
  get_palette e cmap_name n_class = Raise err.
Proof. intros Hc. unfold get_palette. by rewrite Hc. Qed.

Lemma slice_is_hex_color c :
  formats_hex e → is_hex_color (Py.slice_from_1 (rgb2hex e c)) = true.
Proof. intros Hf. destruct (Hf c) as (body & -> & Hb). exact Hb. Qed.

End SamplerFacts.

(** ** The two loops that fill the dictionary *)

Section CatalogFacts.

Context {rgba : Type}.
Variable e : Engine rgba.

Lemma fill_palette_dict_cons index cmap_name items d :
  fill_palette_dict e ((index, cmap_name) :: items) d =
  if (index <? length (list_colormaps e))%nat then
    color_dict ← fill_color_dict e cmap_name (Py.range 3 13) ∅;
    fill_palette_dict e items (<[cmap_name := Graded color_dict]> d)
  else fill_palette_dict e items d.
Proof. reflexivity. Qed.

(** Keys the inner loop does not write keep their value. *)
Lemma fill_color_dict_other cmap_name counts m m' k :
  fill_color_dict e cmap_name counts m = Ok m' →
  k ∉ key <$> counts → m' !! k = m !! k.
Proof.
  revert m. induction counts as [| i counts IH]; intros m Hrun Hk; simpl in Hrun.
  - by inversion Hrun.
  - destruct (get_palette e (Some cmap_name) (Some i)) as [colors |] eqn:Hp;
      simpl in Hrun; [| done].
    rewrite fmap_cons in Hk. apply not_elem_of_cons in Hk as [Hne Hk].
    rewrite (IH _ Hrun Hk). by rewrite lookup_insert_ne.
Qed.

(** The inner loop writes exactly the keys of its counts. *)
Lemma fill_color_dict_dom cmap_name counts m m' :
  fill_color_dict e cmap_name counts m = Ok m' →
  dom m' = dom m ∪ list_to_set (key <$> counts).
Proof.
  revert m. induction counts as [| i counts IH]; intros m Hrun; simpl in Hrun.
  - inversion Hrun. simpl. by rewrite (right_id_L ∅ (∪)).
  - destruct (get_palette e (Some cmap_name) (Some i)) as [colors |] eqn:Hp;
      simpl in Hrun; [| done].
    rewrite (IH _ Hrun), dom_insert_L, fmap_cons. simpl.
    rewrite (comm_L (∪) {[key i]} (dom m)). by rewrite (assoc_L (∪)).
Qed.

(** Under each key the inner loop stores what the sampler returned for
    the count of that key. *)
Lemma fill_color_dict_lookup cmap_name counts m m' i :
  fill_color_dict e cmap_name counts m = Ok m' →
  NoDup (key <$> counts) → i ∈ counts →
  ∃ colors, get_palette e (Some cmap_name) (Some i) = Ok colors
            ∧ m' !! key i = Some colors.
Proof.
  revert m. induction counts as [| j counts IH]; intros m Hrun Hnd Hi.
  - by apply elem_of_nil in Hi.
  - simpl in Hrun.
    destruct (get_palette e (Some cmap_name) (Some j)) as [colors |] eqn:Hp;
      simpl in Hrun; [| done].
    rewrite fmap_cons in Hnd. apply NoDup_cons in Hnd as [Hfresh Hnd].
    destruct (decide (i ∈ counts)) as [Hin | Hout].
    + by apply (IH _ Hrun Hnd).
    + apply elem_of_cons in Hi as [-> | Hin]; [| done].
      exists colors. split; [done |].
      rewrite (fill_color_dict_other _ _ _ _ _ Hrun Hfresh).
      apply lookup_insert_eq.
Qed.

(** The inner loop ends normally once every call of the sampler does. *)
Lemma fill_color_dict_total cmap_name counts m :
  (∀ i, i ∈ counts → ∃ colors, get_palette e (Some cmap_name) (Some i) = Ok colors) →
  ∃ m', fill_color_dict e cmap_name counts m = Ok m'.
Proof.
  revert m. induction counts as [| i counts IH]; intros m Hall; simpl.
  - by eexists.
  - destruct (Hall i) as [colors ->]; [by left |]. simpl.
    apply IH. intros j Hj. apply Hall. by right.
Qed.

(** Names the outer loop does not visit keep their entry. *)
Lemma fill_palette_dict_other items d d' (r : string) :
  fill_palette_dict e items d = Ok d' → r ∉ items.*2 → d' !! r = d !! r.
Proof.
  revert d. induction items as [| [index name] items IH]; intros d Hrun Hr.
  - by inversion Hrun.
  - rewrite fill_palette_dict_cons in Hrun. rewrite fmap_cons in Hr. apply not_elem_of_cons in Hr as [Hne Hr].
    simpl in Hne.
    destruct (index <? length (list_colormaps e))%nat; [| by apply IH].
    destruct (fill_color_dict e name (Py.range 3 13) ∅) as [cd |];
      simpl in Hrun; [| done].
    rewrite (IH _ Hrun Hr). by rewrite lookup_insert_ne.
Qed.

(** A name the outer loop visits, at an index that passes the guard of
    line 133, ends up with the inner dictionary the inner loop builds
    for it. *)
Lemma fill_palette_dict_visited items d d' (r : string) :
  Forall (fun p => (p.1 < length (list_colormaps e))%nat) items →
  fill_palette_dict e items d = Ok d' → r ∈ items.*2 →
  ∃ cd, fill_color_dict e r (Py.range 3 13) ∅ = Ok cd
        ∧ d' !! r = Some (Graded cd).
Proof.
  revert d. induction items as [| [index name] items IH]; intros d Hidx Hrun Hr.
  - by apply elem_of_nil in Hr.
  - apply Forall_cons in Hidx as [Hlt Hidx]. simpl in Hlt.
    apply Nat.ltb_lt in Hlt. rewrite fill_palette_dict_cons, Hlt in Hrun.
    destruct (fill_color_dict e name (Py.range 3 13) ∅) as [cd |] eqn:Hcd;
      simpl in Hrun; [| done].
    destruct (decide (r ∈ items.*2)) as [Hin | Hout].
    + by apply (IH _ Hidx Hrun).
    + rewrite fmap_cons in Hr. apply elem_of_cons in Hr as [-> | Hin]; [| done].
      exists cd. split; [done |].
      rewrite (fill_palette_dict_other _ _ _ _ Hrun Hout).
      apply lookup_insert_eq.
Qed.

Lemma fill_palette_dict_total items d :
  (∀ r i, r ∈ items.*2 → i ∈ Py.range 3 13 →
     ∃ colors, get_palette e (Some r) (Some i) = Ok colors) →
  ∃ d', fill_palette_dict e items d = Ok d'.
Proof.
  revert d. induction items as [| [index name] items IH]; intros d Hall.
  - by eexists.
  - rewrite fill_palette_dict_cons.
    assert (∀ r i, r ∈ items.*2 → i ∈ Py.range 3 13 →
             ∃ colors, get_palette e (Some r) (Some i) = Ok colors) as Hrest.
    { intros r i Hr. apply Hall. rewrite fmap_cons. by right. }
    destruct (index <? length (list_colormaps e))%nat; [| by apply IH].
    destruct (fill_color_dict_total name (Py.range 3 13) ∅) as [cd ->].
    { intros i. apply Hall. rewrite fmap_cons. by left. }
    simpl. by apply IH.
Qed.

End CatalogFacts.

(** ** The published catalog *)

Section PalettesFacts.

Context {rgba : Type}.
Variable e : Engine rgba.

Lemma getitem_Box_of_dict d frozen (k : string) :
  Box.getitem (Box_of_dict d frozen) k = box_value frozen <$> d !! k.
Proof. unfold Box.getitem, Box_of_dict. simpl. apply lookup_fmap. Qed.

Lemma palettes_inv p :
  palettes e = Ok p → ∃ d, __palette_dict e = Ok d ∧ p = Box_of_dict d true.
Proof.
  unfold palettes. destruct (__palette_dict e) as [d |]; simpl; [| done].
  intros [= <-]. by exists d.
Qed.

(** An engine-enumerated name is published with the inner dictionary
    that the inner loop builds for it. *)
Lemma palettes_listed p (r : string) :
  palettes e = Ok p → r ∈ list_colormaps e →
  ∃ cd, fill_color_dict e r (Py.range 3 13) ∅ = Ok cd
        ∧ Box.getitem p r =
            Some (BoxGraded {| Box.frozen_box := true; Box.items := cd |}).
Proof.
  intros (d & Hd & ->)%palettes_inv Hr. unfold __palette_dict in Hd.
  destruct (fill_palette_dict_visited e _ _ _ r (enumerate_index _) Hd)
    as (cd & Hcd & Hlook).
  { by rewrite enumerate_snd. }
  exists cd. split; [done |]. by rewrite getitem_Box_of_dict, Hlook.
Qed.

(** Every other name is published as the literal has it. *)
Lemma palettes_unlisted p (r : string) :
  palettes e = Ok p → r ∉ list_colormaps e →
  Box.getitem p r = box_value true <$> __palette_dict_literal !! r.
Proof.
  intros (d & Hd & ->)%palettes_inv Hr. unfold __palette_dict in Hd.
  rewrite getitem_Box_of_dict. f_equal.
  apply (fill_palette_dict_other e _ _ _ r Hd). by rewrite enumerate_snd.
Qed.

(** The build ends normally when the sampler does on every listed name
    and every count from 3 to 12. *)
Lemma palettes_total :
  (∀ (r : string) (c : Z), r ∈ list_colormaps e → (3 ≤ c ≤ 12)%Z →
     ∃ colors, get_palette e (Some r) (Some c) = Ok colors) →
  ∃ p, palettes e = Ok p.
Proof.
  intros Hall. unfold palettes, __palette_dict.
  destruct (fill_palette_dict_total e (Py.enumerate (list_colormaps e))
              __palette_dict_literal) as [d ->].
  - intros r i Hr Hi. rewrite enumerate_snd in Hr.
    apply elem_of_range in Hi. apply Hall; [done | lia].
  - simpl. by eexists.
Qed.

Lemma palettes_total_resamples :
  resamples_listed e → ∃ p, palettes e = Ok p.
Proof.
  intros Hres. apply palettes_total. intros r c Hr Hc.
  destruct (Hres r c Hr Hc) as (cmap & Hcmap & _).
  rewrite (get_palette_ok e _ _ _ Hcmap). by eexists.
Qed.

(** The colours published for a listed name at a count from 3 to 12. *)
Lemma palettes_listed_count p (r : string) (c : Z) :
  palettes e = Ok p → r ∈ list_colormaps e → (3 ≤ c ≤ 12)%Z →
  ∃ inner colors,
    Box.getitem p r = Some (BoxGraded inner)
    ∧ Box.getitem inner (key c) = Some colors
    ∧ get_palette e (Some r) (Some c) = Ok colors.
Proof.
  intros Hp Hr Hc. destruct (palettes_listed p r Hp Hr) as (cd & Hcd & Hget).
  destruct (fill_color_dict_lookup e r _ _ _ c Hcd keys_3_to_12_NoDup)
    as (colors & Hcolors & Hlook).
  { apply elem_of_range. lia. }
  by eexists _, colors.
Qed.

End PalettesFacts.

(** ** The stub engine meets the engine contract *)

Module StubFacts.

Lemma hexdigit_is_hex d : is_hex_digit (Stub.hexdigit d) = true.
Proof.
  unfold Stub.hexdigit.
  pose proof (Z.mod_pos_bound d 16 eq_refl) as Hb.
  assert (Z.to_nat (d mod 16) < 16)%nat as Hlt by lia.
  generalize dependent (Z.to_nat (d mod 16)). intros n Hlt.
  do 16 (destruct n as [| n]; [reflexivity |]). lia.
Qed.

Lemma grey_formats_hex names : formats_hex (Stub.engine names).
Proof.
  intros g. eexists. split; [reflexivity |].
  unfold is_hex_color. simpl. by rewrite !hexdigit_is_hex.
Qed.

Lemma grey_resamples_listed names : resamples_listed (Stub.engine names).
Proof.
  intros r c Hr Hc. simpl. unfold Stub.grey_cmap. simpl.
  rewrite bool_decide_eq_true_2 by done.
  destruct (Z.ltb_spec 0 c) as [_ |]; [| lia]. by eexists.
Qed.

Lemma grey_rejects_unknown names : rejects_unknown (Stub.engine names).
Proof.
  intros r n Hr. simpl. unfold Stub.grey_cmap.
  by rewrite bool_decide_eq_false_2.
Qed.

End StubFacts.

(** * The claims *)

(** ** Sampling *)

(** C3: for a ramp name [r] that the engine lists and a count [c] from 3
    to 12, [get_palette r c] returns a list of exactly [c] strings, each a
    six-character string of hexadecimal digits; the engine is one that
    resamples a listed ramp to the requested number of stops and whose
    [rgb2hex] writes a marker followed by six hexadecimal digits. *)
Theorem get_palette_count_and_hex {rgba : Type} (e : Engine rgba)
    (r : string) (c : Z) :
  resamples_listed e → formats_hex e →
  r ∈ list_colormaps e → (3 ≤ c ≤ 12)%Z →
  ∃ colors, get_palette e (Some r) (Some c) = Ok colors
            ∧ Z.of_nat (length colors) = c
            ∧ Forall (fun s => is_hex_color s = true) colors.
Proof.
  intros Hres Hfmt Hr Hc. destruct (Hres r c Hr Hc) as (cmap & Hcmap & HN).
  eexists. split; [by apply get_palette_ok |]. split.
  - rewrite length_map, range_length, HN. lia.
  - apply Forall_forall. intros s (i & -> & _)%(list_elem_of_fmap_1 _).
    by apply slice_is_hex_color.
Qed.

Lemma get_palette_count_and_hex_witness :
  ∃ colors, get_palette (Stub.engine ["X"]) (Some "X") (Some 5) = Ok colors
            ∧ Z.of_nat (length colors) = 5
            ∧ Forall (fun s => is_hex_color s = true) colors.
Proof.
  apply (get_palette_count_and_hex (Stub.engine ["X"]) "X" 5).
  - apply StubFacts.grey_resamples_listed.
  - apply StubFacts.grey_formats_hex.
  - by left.
  - lia.
Defined.

(** C8: a name that is not an engine ramp name makes [get_palette] raise
    the engine's [UnknownRampError]; in particular the call does not
    return the colour list that the catalog holds under that name. *)
Theorem get_palette_unknown_ramp {rgba : Type} (e : Engine rgba)
    (cmap_name : string) (n_class : option Z) :
  rejects_unknown e → cmap_name ∉ list_colormaps e →
  get_palette e (Some cmap_name) n_class = Raise UnknownRampError
  ∧ ∀ p colors, palettes e = Ok p →
      Box.getitem p cmap_name = Some (BoxFlat colors) →
      get_palette e (Some cmap_name) n_class ≠ Ok colors.
Proof.
  intros Hrej Hr.
  assert (get_palette e (Some cmap_name) n_class = Raise UnknownRampError) as Hp.
  { apply get_palette_raise. by apply Hrej. }
  split; [done |]. intros p colors _ _. by rewrite Hp.
Qed.

Lemma get_palette_unknown_ramp_witness :
  get_palette (Stub.engine ["X"]) (Some "ndvi") (Some 5) = Raise UnknownRampError
  ∧ ∀ p colors, palettes (Stub.engine ["X"]) = Ok p →
      Box.getitem p "ndvi" = Some (BoxFlat colors) →
      get_palette (Stub.engine ["X"]) (Some "ndvi") (Some 5) ≠ Ok colors.
Proof.
  apply (get_palette_unknown_ramp (Stub.engine ["X"]) "ndvi" (Some 5)).
  - apply StubFacts.grey_rejects_unknown.
  - simpl. intros [Heq | Hnil]%elem_of_cons; [discriminate |].
    by apply elem_of_nil in Hnil.
Defined.

(** ** The catalog *)

(** C1, as stated, fails for an engine that registers a ramp called
    ["ndvi"]: the loop of lines 132-139 runs after the literal and
    replaces the hand-authored entry. *)
Lemma hand_authored_wins_fails : ¬ hand_authored_wins (Stub.engine ["ndvi"]).
Proof.
  intros Hwins.
  destruct (palettes_total_resamples _ (StubFacts.grey_resamples_listed ["ndvi"]))
    as [p Hp].
  assert ("ndvi" ∈ list_colormaps (Stub.engine ["ndvi"])) as Hin by by left.
  destruct (palettes_listed _ p "ndvi" Hp Hin) as (cd & _ & Hget).
  specialize (Hwins p "ndvi" ndvi Hp Hin eq_refl).
  rewrite Hget in Hwins. discriminate.
Qed.

(** C1, amended: on a collision the engine-derived inner mapping takes
    precedence.  A hand-authored name that the engine enumerates is
    published with the inner mapping sampled from the engine; it keeps its
    literal colour list exactly when the engine does not enumerate it. *)
Theorem engine_entry_wins_collision {rgba : Type} (e : Engine rgba) p
    (name : string) colors :
  palettes e = Ok p →
  __palette_dict_literal !! name = Some (Flat colors) →
  (name ∈ list_colormaps e →
     ∃ inner, Box.getitem p name = Some (BoxGraded inner)
       ∧ ∀ c, (3 ≤ c ≤ 12)%Z →
           ∃ cs, get_palette e (Some name) (Some c) = Ok cs
                 ∧ Box.getitem inner (key c) = Some cs)
  ∧ (name ∉ list_colormaps e → Box.getitem p name = Some (BoxFlat colors)).
Proof.
  intros Hp Hlit. split.
  - intros Hin. destruct (palettes_listed e p name Hp Hin) as (cd & Hcd & Hget).
    eexists. split; [exact Hget |]. intros c Hc.
    apply (fill_color_dict_lookup e name _ _ _ c Hcd keys_3_to_12_NoDup).
    apply elem_of_range. lia.
  - intros Hout. by rewrite (palettes_unlisted e p name Hp Hout), Hlit.
Qed.

Lemma engine_entry_wins_collision_witness :
  ∃ p, palettes (Stub.engine ["ndvi"]) = Ok p
    ∧ ∃ inner, Box.getitem p "ndvi" = Some (BoxGraded inner)
        ∧ Box.getitem inner "n03" = Some ["000000"; "7f7f7f"; "ffffff"].
Proof.
  destruct (palettes (Stub.engine ["ndvi"])) as [p |] eqn:Hp;
    [| by vm_compute in Hp].
  exists p. split; [done |].
  destruct (engine_entry_wins_collision (Stub.engine ["ndvi"]) p "ndvi" ndvi
              Hp eq_refl) as [Hwins _].
  destruct Hwins as (inner & Hget & Hinner); [by left |].
  exists inner. split; [done |].
  destruct (Hinner 3) as (cs & Hcs & Hlook); [lia |].
  vm_compute in Hcs. injection Hcs as <-. exact Hlook.
Defined.

(** C2 at the failing entry: whatever the engine, so long as it has no
    ramp called ["ndwi"], the catalog publishes the literal ["ndwi"] list,
    and each of its eight strings has seven characters, starts with the
    marker and is not a Hex Color.  Shown for the engine that registers
    the single ramp ["X"]. *)
Theorem ndwi_colors_keep_marker :
  (∃ p, palettes (Stub.engine ["X"]) = Ok p
        ∧ Box.getitem p "ndwi" = Some (BoxFlat ndwi))
  ∧ Forall (fun s => String.length s = 7%nat
                     ∧ String.get 0 s = Some "#"%char
                     ∧ is_hex_color s = false) ndwi.
Proof.
  split.
  - destruct (palettes_total_resamples _ (StubFacts.grey_resamples_listed ["X"]))
      as [p Hp].
    exists p. split; [done |].
    rewrite (palettes_unlisted _ p "ndwi" Hp); [done |].
    simpl. intros [Heq | Hnil]%elem_of_cons; [discriminate |].
    by apply elem_of_nil in Hnil.
  - unfold ndwi. repeat (apply Forall_cons; split; [by vm_compute |]).
    by apply Forall_nil.
Qed.

(** The other colours of the catalog are Hex Colors: the two remaining
    hand-authored lists, and every list sampled from an engine whose
    [rgb2hex] writes a marker followed by six hexadecimal digits. *)
Lemma ndvi_dem_hex : Forall (fun s => is_hex_color s = true) (ndvi ++ dem).
Proof.
  apply (bool_decide_unpack (Forall _ _)). by vm_compute.
Qed.

Lemma get_palette_hex {rgba : Type} (e : Engine rgba) cmap_name n_class colors :
  formats_hex e → get_palette e cmap_name n_class = Ok colors →
  Forall (fun s => is_hex_color s = true) colors.
Proof.
  intros Hfmt. unfold get_palette.
  destruct (get_cmap e cmap_name n_class) as [cmap |]; simpl; [| done].
  intros [= <-]. apply Forall_forall.
  intros s (i & -> & _)%(list_elem_of_fmap_1 _). by apply slice_is_hex_color.
Qed.

Lemma fill_color_dict_hex {rgba : Type} (e : Engine rgba) cmap_name counts m m' :
  formats_hex e →
  map_Forall (fun _ cs => Forall (fun s => is_hex_color s = true) cs) m →
  fill_color_dict e cmap_name counts m = Ok m' →
  map_Forall (fun _ cs => Forall (fun s => is_hex_color s = true) cs) m'.
Proof.
  intros Hfmt. revert m. induction counts as [| i counts IH]; intros m Hm Hrun;
    simpl in Hrun.
  - by inversion Hrun; subst.
  - destruct (get_palette e (Some cmap_name) (Some i)) as [colors |] eqn:Hp;
      simpl in Hrun; [| done].
    apply (IH _ (map_Forall_insert_2 _ _ _ _ (get_palette_hex _ _ _ _ Hfmt Hp) Hm) Hrun).
Qed.

Lemma engine_entries_hex {rgba : Type} (e : Engine rgba) p (r : string)
    inner k colors :
  formats_hex e → palettes e = Ok p → r ∈ list_colormaps e →
  Box.getitem p r = Some (BoxGraded inner) →
  Box.getitem inner k = Some colors →
  Forall (fun s => is_hex_color s = true) colors.
Proof.
  intros Hfmt Hp Hr Hget Hk.
  destruct (palettes_listed e p r Hp Hr) as (cd & Hcd & Hget').
  rewrite Hget' in Hget. injection Hget as <-.
  apply (fill_color_dict_hex e r _ ∅ cd Hfmt (map_Forall_empty _) Hcd k colors Hk).
Qed.

(** C4: for an engine-enumerated ramp name [r] and a count [c] from 3 to
    12, the published entry of [r] is an inner mapping, and what it holds
    under the class-count key of [c] is the list that a call
    [get_palette r c] returns. *)
Theorem catalog_matches_sampling {rgba : Type} (e : Engine rgba) p
    (r : string) (c : Z) :
  palettes e = Ok p → r ∈ list_colormaps e → (3 ≤ c ≤ 12)%Z →
  ∃ inner colors,
    Box.getitem p r = Some (BoxGraded inner)
    ∧ Box.getitem inner (key c) = Some colors
    ∧ get_palette e (Some r) (Some c) = Ok colors.
Proof. apply palettes_listed_count. Qed.

Lemma catalog_matches_sampling_witness :
  ∃ p inner,
    palettes (Stub.engine ["X"]) = Ok p
    ∧ key 5 = "n05"
    ∧ Box.getitem p "X" = Some (BoxGraded inner)
    ∧ Box.getitem inner "n05" =
        Some ["000000"; "3f3f3f"; "7f7f7f"; "bfbfbf"; "ffffff"]
    ∧ get_palette (Stub.engine ["X"]) (Some "X") (Some 5) =
        Ok ["000000"; "3f3f3f"; "7f7f7f"; "bfbfbf"; "ffffff"].
Proof.
  destruct (palettes (Stub.engine ["X"])) as [p |] eqn:Hp;
    [| by vm_compute in Hp].
  destruct (catalog_matches_sampling (Stub.engine ["X"]) p "X" 5 Hp)
    as (inner & colors & Hget & Hinner & Hcolors); [by left | lia |].
  exists p, inner. split; [done |]. split; [done |]. split; [done |].
  vm_compute in Hcolors. injection Hcolors as <-. by split.
Defined.

(** C6, as stated, fails for an engine that registers a ramp called
    ["ndvi"]: the published entry is then the inner mapping keyed by class
    count. *)
Lemma ndvi_entry_is_literal_fails :
  ¬ ndvi_entry_is_literal (Stub.engine ["ndvi"]).
Proof.
  intros Hlit.
  destruct (palettes_total_resamples _ (StubFacts.grey_resamples_listed ["ndvi"]))
    as [p Hp].
  destruct (palettes_listed _ p "ndvi" Hp) as (cd & _ & Hget); [by left |].
  rewrite (Hlit p Hp) in Hget. discriminate.
Qed.

(** C6, amended: provided the engine enumerates no ramp called ["ndvi"],
    [palettes["ndvi"]] is the flat hand-authored list of exactly 17 colour
    strings, whatever the engine samples. *)
Theorem ndvi_entry_literal_unless_listed {rgba : Type} (e : Engine rgba) p :
  palettes e = Ok p → "ndvi" ∉ list_colormaps e →
  Box.getitem p "ndvi" = Some (BoxFlat ndvi) ∧ length ndvi = 17%nat.
Proof.
  intros Hp Hout. split; [| done].
  by rewrite (palettes_unlisted e p "ndvi" Hp Hout).
Qed.

Lemma ndvi_entry_literal_unless_listed_witness :
  ∃ p, palettes (Stub.engine ["X"]) = Ok p
       ∧ Box.getitem p "ndvi" = Some (BoxFlat ndvi) ∧ length ndvi = 17%nat.
Proof.
  destruct (palettes (Stub.engine ["X"])) as [p |] eqn:Hp;
    [| by vm_compute in Hp].
  exists p. split; [done |].
  apply (ndvi_entry_literal_unless_listed (Stub.engine ["X"]) p Hp).
  simpl. intros [Heq | Hnil]%elem_of_cons; [discriminate |].
  by apply elem_of_nil in Hnil.
Defined.

(** C7: the inner mapping published for an engine-enumerated ramp name
    has exactly the ten keys ["n03"] to ["n12"]. *)
Theorem inner_keys_n03_to_n12 {rgba : Type} (e : Engine rgba) p (r : string) :
  palettes e = Ok p → r ∈ list_colormaps e →
  ∃ inner, Box.getitem p r = Some (BoxGraded inner)
    ∧ dom (Box.items inner) =
        list_to_set ["n03"; "n04"; "n05"; "n06"; "n07"; "n08"; "n09"; "n10";
                     "n11"; "n12"]
    ∧ size (Box.items inner) = 10%nat.
Proof.
  intros Hp Hr. destruct (palettes_listed e p r Hp Hr) as (cd & Hcd & Hget).
  eexists. split; [exact Hget |]. simpl.
  pose proof (fill_color_dict_dom e r _ _ _ Hcd) as Hdom.
  rewrite dom_empty_L, (left_id_L ∅ (∪)) in Hdom.
  split.
  - by rewrite Hdom, keys_3_to_12.
  - rewrite <- size_dom, Hdom, size_list_to_set by apply keys_3_to_12_NoDup.
    by rewrite keys_3_to_12.
Qed.

Lemma inner_keys_n03_to_n12_witness :
  ∃ p inner, palettes (Stub.engine ["X"]) = Ok p
    ∧ Box.getitem p "X" = Some (BoxGraded inner)
    ∧ dom (Box.items inner) =
        list_to_set ["n03"; "n04"; "n05"; "n06"; "n07"; "n08"; "n09"; "n10";
                     "n11"; "n12"]
    ∧ size (Box.items inner) = 10%nat.
Proof.
  destruct (palettes (Stub.engine ["X"])) as [p |] eqn:Hp;
    [| by vm_compute in Hp].
  destruct (inner_keys_n03_to_n12 (Stub.engine ["X"]) p "X" Hp) as (inner & Hin);
    [by left |].
  by exists p, inner.
Defined.

(** ** Writes to the published catalog *)

(** A box that is not frozen takes a write, as the dictionary it wraps. *)
Lemma unfrozen_setitem {V : Type} (d : gmap string V) (k : string) (v : V) :
  Box.setitem {| Box.frozen_box := false; Box.items := d |} k v =
  (Ok tt, {| Box.frozen_box := false; Box.items := <[k := v]> d |}).
Proof. reflexivity. Qed.

Lemma palettes_frozen {rgba : Type} (e : Engine rgba) p :
  palettes e = Ok p → Box.frozen_box p = true.
Proof. by intros (d & _ & ->)%palettes_inv. Qed.

Lemma palettes_inner_frozen {rgba : Type} (e : Engine rgba) p (r : string) inner :
  palettes e = Ok p → Box.getitem p r = Some (BoxGraded inner) →
  Box.frozen_box inner = true.
Proof.
  intros (d & _ & ->)%palettes_inv. rewrite getitem_Box_of_dict.
  destruct (d !! r) as [[colors | cd] |]; simpl; [done | | done].
  by intros [= <-].
Qed.

(** C5: once the catalog is built, writing an item of [palettes] (a new
    name or one already there) and deleting an item both raise, and the
    box after the attempt is the box before it; the same holds for every
    inner mapping the catalog publishes. *)
Theorem palettes_reject_writes {rgba : Type} (e : Engine rgba) p
    (k : string) (v : box_entry) :
  palettes e = Ok p →
  Box.setitem p k v = (Raise BoxError, p)
  ∧ Box.delitem p k = (Raise BoxError, p)
  ∧ ∀ (r : string) inner (k' : string) (colors : list string),
      Box.getitem p r = Some (BoxGraded inner) →
      Box.setitem inner k' colors = (Raise BoxError, inner)
      ∧ Box.delitem inner k' = (Raise BoxError, inner).
Proof.
  intros Hp. unfold Box.setitem, Box.delitem.
  rewrite (palettes_frozen e p Hp). split; [done |]. split; [done |].
  intros r inner k' colors Hget.
  by rewrite (palettes_inner_frozen e p r inner Hp Hget).
Qed.

Lemma palettes_reject_writes_witness :
  ∃ p, palettes (Stub.engine ["X"]) = Ok p
    ∧ Box.setitem p "mine" (BoxFlat ["000000"]) = (Raise BoxError, p)
    ∧ Box.delitem p "mine" = (Raise BoxError, p).
Proof.
  destruct (palettes (Stub.engine ["X"])) as [p |] eqn:Hp;
    [| by vm_compute in Hp].
  exists p. split; [done |].
  destruct (palettes_reject_writes (Stub.engine ["X"]) p "mine"
              (BoxFlat ["000000"]) Hp) as (Hset & Hdel & _).
  by split.
Defined.

(** ** The all-ramps legend *)

Section PlotFacts.

Context {F : Type} `{FloatOps F} {rgba : Type}.
Variable e : Engine rgba.

Lemma alter_fixed {A : Type} (f : A → A) (l : list A) (i : nat) :
  Forall (fun a => f a = a) l → alter f i l = l.
Proof.
  intros Hl. revert i. induction Hl as [| a l Ha _ IH]; intros [| i];
    [done | done | |].
  - change (f a :: l = a :: l). by rewrite Ha.
  - change (a :: alter f i l = a :: l). by rewrite IH.
Qed.

Lemma draw_rows_cons nrows gradient ax name pairs (fig : Plt.Figure F) :
  Plt.draw_rows e nrows gradient ((ax, name) :: pairs) fig =
  (_ ← get_cmap e (Some name) None;
   let fig := Plt.imshow gradient name ax fig in
   let fig := Plt.set_axis_off ax fig in
   let '(pos0, pos1, _, pos3) := row_bounds nrows ax in
   let x_text := fsub pos0 (flit (1 # 100)) in
   let y_text := fadd pos1 (fdiv pos3 (flit 2)) in
   let fig := Plt.text x_text y_text name 12 fig in
   Plt.draw_rows e nrows gradient pairs fig).
Proof. reflexivity. Qed.

(** The first loop, from row [length rows] on: it draws the remaining
    rows in the order of the names, labels each with its name, and leaves
    the size of the figure alone. *)
Lemma draw_rows_spec nrows gradient names :
  ∀ (rows : list Plt.Axes) (fig fig' : Plt.Figure F),
    Plt.axes fig = (rows ++ replicate (length names) Plt.blank)%list →
    Plt.draw_rows e nrows gradient
      (zip (seq (length rows) (length names)) names) fig = Ok fig' →
    Plt.axes fig' = (rows ++ map (drawn gradient) names)%list
    ∧ Plt.figsize fig' = Plt.figsize fig
    ∧ Plt.s <$> Plt.texts fig' = ((Plt.s <$> Plt.texts fig) ++ names)%list
    ∧ Forall (fun name => ∃ cmap, get_cmap e (Some name) None = Ok cmap) names.
Proof.
  induction names as [| name names IH]; intros rows fig fig' Haxes Hrun.
  - simpl in Hrun. injection Hrun as <-. simpl in *.
    by rewrite !(right_id_L [] (++)) in *.
  - change (zip (seq (length rows) (length (name :: names))) (name :: names))
      with ((length rows, name) :: zip (seq (S (length rows)) (length names)) names)
      in Hrun.
    rewrite draw_rows_cons in Hrun.
    destruct (get_cmap e (Some name) None) as [cmap |] eqn:Hcmap;
      simpl in Hrun; [| done].
    destruct (row_bounds nrows (length rows)) as [[[pos0 pos1] pos2] pos3].
    replace (S (length rows)) with (length (rows ++ [drawn gradient name])%list)
      in Hrun by (rewrite length_app; simpl; lia).
    apply IH in Hrun.
    + destruct Hrun as (Hax & Hsize & Htexts & Hknown).
      rewrite Hax, Hsize, Htexts. simpl. rewrite <- !(assoc_L (++)). simpl.
      rewrite fmap_app. simpl. rewrite <- (assoc_L (++)). simpl.
      repeat split; try done. apply Forall_cons. split; [by eexists | done].
    + simpl. rewrite Haxes. simpl.
      rewrite <- (Nat.add_0_r (length rows)), !alter_app_r. simpl.
      by rewrite <- (assoc_L (++)).
Qed.

(** The second loop changes nothing once every row has its axis off. *)
Lemma axis_off_again (fig : Plt.Figure F) (axs : list nat) :
  Forall (fun a => Plt.axis_on a = false) (Plt.axes fig) →
  foldl (fun fig ax => Plt.set_axis_off ax fig) fig axs = fig.
Proof.
  intros Hoff. induction axs as [| ax axs IH]; simpl; [done |].
  assert (Plt.set_axis_off ax fig = fig) as ->; [| done].
  unfold Plt.set_axis_off, Plt.on_axes. rewrite alter_fixed.
  - by destruct fig.
  - eapply Forall_impl; [exact Hoff |]. intros [img on] Hon. simpl in *.
    by rewrite Hon.
Qed.

End PlotFacts.

Section PlotClaims.

Context {F : Type} `{FloatOps F} {rgba : Type}.
Variable e : Engine rgba.
Variables width height : F.

(** [plot_colormaps] by the backend's verdict on the figure size and by
    the number of ramp names. *)
Lemma plot_colormaps_cases :
  Plt.plot_colormaps e width height =
  if figsize_ok width
       (fmul_int height (Z.of_nat (length (list_colormaps e)))) then
    match length (list_colormaps e) with
    | O => Raise RenderingError
    | 1%nat => Raise TypeError
    | nrows =>
        fig ← Plt.draw_rows e nrows (2%nat, 256%nat)
                (zip (seq 0 nrows) (list_colormaps e)) (stacked width height nrows);
        Ok (foldl (fun fig ax => Plt.set_axis_off ax fig) fig (seq 0 nrows))
    end
  else Raise RenderingError.
Proof.
  unfold Plt.plot_colormaps, Plt.subplots. simpl.
  destruct (figsize_ok width _); [| done].
  by destruct (length (list_colormaps e)) as [| [| n]].
Qed.

(** A figure that [plot_colormaps] shows. *)
Lemma plot_colormaps_inv fig :
  Plt.plot_colormaps e width height = Ok fig →
  (2 ≤ length (list_colormaps e))%nat
  ∧ Plt.figsize fig =
      (width, fmul_int height (Z.of_nat (length (list_colormaps e))))
  ∧ Plt.axes fig = map (drawn (2%nat, 256%nat)) (list_colormaps e)
  ∧ Plt.s <$> Plt.texts fig = list_colormaps e.
Proof.
  rewrite plot_colormaps_cases.
  destruct (figsize_ok width _); [| done].
  destruct (length (list_colormaps e)) as [| [| n]] eqn:Hlen; [done | done |].
  cbv beta iota zeta. rewrite <- Hlen.
  intros (fig1 & Hrun & [= <-])%bind_Ok_inv.
  apply (draw_rows_spec e _ _ _ []) in Hrun as (Hax & Hsize & Htexts & _);
    [| done].
  simpl in Hax. rewrite axis_off_again.
  - rewrite Hax, Hsize, Htexts. split; [lia |]. by repeat split.
  - rewrite Hax. by apply Forall_fmap, Forall_true.
Qed.

End PlotClaims.




(** C10: [plot_colormaps] shows a figure only if the engine enumerates at
    least two ramp names; with exactly one name it always raises:
    [plt.subplots] hands back a single axes object and iterating over it
    raises [TypeError], unless the backend has already refused the figure
    size. *)
Theorem plot_colormaps_needs_two_ramps {F : Type} `{FloatOps F} {rgba : Type}
    (e : Engine rgba) (width height : F) :
  (length (list_colormaps e) = 1%nat →
     Plt.plot_colormaps e width height =
       Raise (if figsize_ok width (fmul_int height 1) then TypeError
              else RenderingError))
  ∧ (∀ fig, Plt.plot_colormaps e width height = Ok fig →
       (2 ≤ length (list_colormaps e))%nat).
Proof.
  split.
  - intros Hone. rewrite plot_colormaps_cases, Hone. simpl.
    by destruct (figsize_ok width _).
  - by intros fig (Hlen & _)%plot_colormaps_inv.
Qed.

Lemma plot_colormaps_needs_two_ramps_witness :
  Plt.plot_colormaps (Stub.engine ["X"]) (8 # 1)%Q (4 # 10)%Q = Raise TypeError.
Proof.
  exact (proj1 (plot_colormaps_needs_two_ramps (Stub.engine ["X"])
                  (8 # 1)%Q (4 # 10)%Q) eq_refl).
Defined.

(** * Further properties *)

(** ** The sampler, for any name and any class count *)

Lemma range_lookup lo hi (k : nat) :
  (k < Z.to_nat (hi - lo))%nat → Py.range lo hi !! k = Some (lo + Z.of_nat k)%Z.
Proof.
  intros Hk. unfold Py.range.
  change (map ?f ?l) with (f <$> l). rewrite list_lookup_fmap.
  by rewrite lookup_seq_lt.
Qed.

(** X1: whenever the engine hands out a colormap, [get_palette] returns
    one colour per stop of it, [cmap.N] in all (none when [cmap.N] is not
    positive), and the colour at position [i] is [rgb2hex(cmap(i))] without
    its first character. *)
Theorem get_palette_stops {rgba : Type} (e : Engine rgba) cmap_name n_class cmap :
  get_cmap e cmap_name n_class = Ok cmap →
  ∃ colors, get_palette e cmap_name n_class = Ok colors
    ∧ length colors = Z.to_nat (N cmap)
    ∧ ∀ i, (0 ≤ i < N cmap)%Z →
        colors !! Z.to_nat i = Some (Py.slice_from_1 (rgb2hex e (call cmap i))).
Proof.
  intros Hcmap. eexists. split; [by apply get_palette_ok |]. split.
  - by rewrite length_map, range_length, Z.sub_0_r.
  - intros i Hi. change (map ?f ?l) with (f <$> l).
    rewrite list_lookup_fmap, range_lookup by lia. simpl.
    by rewrite Z2Nat.id by lia.
Qed.

Lemma get_palette_stops_witness :
  ∃ colors,
    get_palette (Stub.engine ["X"]) (Some "X") None = Ok colors
    ∧ length colors = 256%nat
    ∧ colors !! 255%nat = Some "ffffff".
Proof.
  destruct (get_palette_stops (Stub.engine ["X"]) (Some "X") None
              {| N := 256; call := Stub.grey 256 |} eq_refl)
    as (colors & Hp & Hlen & Hat).
  exists colors. split; [done |]. split; [done |].
  by apply (Hat 255%Z).
Defined.

(** ** The catalog build: failure, names, sizes *)

Section BuildFacts.

Context {rgba : Type}.
Variable e : Engine rgba.

Lemma fill_color_dict_raise cmap_name counts m err :
  fill_color_dict e cmap_name counts m = Raise err →
  ∃ i, i ∈ counts ∧ get_palette e (Some cmap_name) (Some i) = Raise err.
Proof.
  revert m. induction counts as [| i counts IH]; intros m Hrun; simpl in Hrun.
  - done.
  - destruct (get_palette e (Some cmap_name) (Some i)) as [colors | err'] eqn:Hp;
      simpl in Hrun.
    + destruct (IH _ Hrun) as (j & Hj & Hraise). exists j. split; [by right | done].
    + injection Hrun as ->. exists i. split; [by left | done].
Qed.

Lemma fill_palette_dict_raise items d err :
  fill_palette_dict e items d = Raise err →
  ∃ (r : string) i, r ∈ items.*2 ∧ i ∈ Py.range 3 13
    ∧ get_palette e (Some r) (Some i) = Raise err.
Proof.
  revert d. induction items as [| [index name] items IH]; intros d Hrun.
  - done.
  - rewrite fill_palette_dict_cons in Hrun. rewrite fmap_cons.
    assert (∀ d', fill_palette_dict e items d' = Raise err →
              ∃ (r : string) i, r ∈ name :: items.*2 ∧ i ∈ Py.range 3 13
                ∧ get_palette e (Some r) (Some i) = Raise err) as Hrest.
    { intros d' (r & i & Hr & Hi & Hraise)%IH. exists r, i.
      split; [by right | done]. }
    destruct (index <? length (list_colormaps e))%nat; [| by apply (Hrest d)].
    destruct (fill_color_dict e name (Py.range 3 13) ∅) as [cd | err'] eqn:Hcd;
      simpl in Hrun.
    + by apply (Hrest _ Hrun).
    + injection Hrun as ->.
      destruct (fill_color_dict_raise _ _ _ _ Hcd) as (i & Hi & Hraise).
      exists name, i. split; [by left | done].
Qed.

Lemma palettes_raise_inv err :
  palettes e = Raise err →
  ∃ (r : string) (c : Z), r ∈ list_colormaps e ∧ (3 ≤ c ≤ 12)%Z
    ∧ get_palette e (Some r) (Some c) = Raise err.
Proof.
  unfold palettes, __palette_dict.
  destruct (fill_palette_dict e _ _) as [d | err'] eqn:Hrun; simpl; [done |].
  intros [= ->].
  destruct (fill_palette_dict_raise _ _ _ Hrun) as (r & i & Hr & Hi & Hraise).
  rewrite enumerate_snd in Hr. apply elem_of_range in Hi.
  exists r, i. split; [done |]. split; [lia | done].
Qed.

Lemma literal_lookup_is_Some (k : string) :
  is_Some (__palette_dict_literal !! k) ↔ k ∈ ["ndvi"; "ndwi"; "dem"].
Proof.
  unfold __palette_dict_literal. rewrite !lookup_insert_is_Some.
  rewrite lookup_empty, !elem_of_cons, elem_of_nil. split.
  - intros [-> | [_ [-> | [_ [-> | [_ []%is_Some_None]]]]]]; auto.
  - intros [-> | [-> | [-> | []]]].
    + right. split; [done |]. right. split; [done |]. by left.
    + right. split; [done |]. by left.
    + by left.
Qed.

Lemma palettes_names p (k : string) :
  palettes e = Ok p →
  is_Some (Box.getitem p k)
  ↔ k ∈ list_colormaps e ∨ k ∈ ["ndvi"; "ndwi"; "dem"].
Proof.
  intros Hp. destruct (decide (k ∈ list_colormaps e)) as [Hin | Hout].
  - destruct (palettes_listed e p k Hp Hin) as (cd & _ & ->).
    split; [by left | by eexists].
  - rewrite (palettes_unlisted e p k Hp Hout), fmap_is_Some.
    rewrite literal_lookup_is_Some. split; [by right | by intros [? | ?]].
Qed.

End BuildFacts.

(** X3: when building the catalog fails, the exception is the one that
    [get_palette] raised for some engine-enumerated name and some class
    count from 3 to 12; the build adds no failure of its own. *)
Theorem palettes_failure_comes_from_sampling {rgba : Type} (e : Engine rgba) err :
  palettes e = Raise err →
  ∃ (r : string) (c : Z), r ∈ list_colormaps e ∧ (3 ≤ c ≤ 12)%Z
    ∧ get_palette e (Some r) (Some c) = Raise err.
Proof. apply palettes_raise_inv. Qed.

Lemma palettes_failure_comes_from_sampling_witness :
  ∃ (r : string) (c : Z),
    r ∈ ["X"; "ghost"] ∧ (3 ≤ c ≤ 12)%Z
    ∧ get_palette (listing_engine ["X"; "ghost"] ["X"]) (Some r) (Some c)
      = Raise UnknownRampError.
Proof.
  apply (palettes_failure_comes_from_sampling
           (listing_engine ["X"; "ghost"] ["X"]) UnknownRampError).
  by vm_compute.
Defined.

(** X4: the catalog is built exactly when [get_palette] returns for every
    engine-enumerated name at every class count from 3 to 12; one failing
    sample leaves no catalog at all. *)
Theorem palettes_built_iff_all_sampled {rgba : Type} (e : Engine rgba) :
  (∃ p, palettes e = Ok p)
  ↔ ∀ (r : string) (c : Z), r ∈ list_colormaps e → (3 ≤ c ≤ 12)%Z →
      ∃ colors, get_palette e (Some r) (Some c) = Ok colors.
Proof.
  split; [| apply palettes_total].
  intros [p Hp] r c Hr Hc.
  destruct (palettes_listed_count e p r c Hp Hr Hc) as (_ & colors & _ & _ & Hs).
  by exists colors.
Qed.

Lemma palettes_built_iff_all_sampled_witness :
  ∃ colors, get_palette (Stub.engine ["X"]) (Some "X") (Some 12) = Ok colors.
Proof.
  apply (proj1 (palettes_built_iff_all_sampled (Stub.engine ["X"]))).
  - apply palettes_total_resamples, StubFacts.grey_resamples_listed.
  - by left.
  - lia.
Defined.

(** X5: the names under which the built catalog has an entry are exactly
    the engine-enumerated names together with ["ndvi"], ["ndwi"] and
    ["dem"]. *)
Theorem palettes_names_exactly {rgba : Type} (e : Engine rgba) p (k : string) :
  palettes e = Ok p →
  is_Some (Box.getitem p k)
  ↔ k ∈ list_colormaps e ∨ k ∈ ["ndvi"; "ndwi"; "dem"].
Proof. apply palettes_names. Qed.

Lemma palettes_names_exactly_witness :
  ∃ p, palettes (Stub.engine ["X"]) = Ok p
    ∧ is_Some (Box.getitem p "dem") ∧ Box.getitem p "viridis" = None.
Proof.
  destruct (palettes (Stub.engine ["X"])) as [p |] eqn:Hp;
    [| by vm_compute in Hp].
  exists p. split; [done |]. split.
  - apply (palettes_names_exactly (Stub.engine ["X"]) p "dem" Hp).
    right. by do 2 right; left.
  - apply eq_None_not_Some.
    intros Hsome%(palettes_names_exactly (Stub.engine ["X"]) p "viridis" Hp).
    simpl in Hsome. revert Hsome.
    apply (bool_decide_unpack (¬ ("viridis" ∈ ["X"]
                                  ∨ "viridis" ∈ ["ndvi"; "ndwi"; "dem"]))).
    by vm_compute.
Defined.

(** X6: in the built catalog the list stored for an engine-enumerated name
    under the class-count key of [c] has exactly [c] colours, for an engine
    that resamples a listed ramp to the requested number of stops. *)
Theorem catalog_list_has_c_colors {rgba : Type} (e : Engine rgba) p
    (r : string) (c : Z) :
  resamples_listed e → palettes e = Ok p →
  r ∈ list_colormaps e → (3 ≤ c ≤ 12)%Z →
  ∃ inner colors,
    Box.getitem p r = Some (BoxGraded inner)
    ∧ Box.getitem inner (key c) = Some colors
    ∧ Z.of_nat (length colors) = c.
Proof.
  intros Hres Hp Hr Hc.
  destruct (palettes_listed_count e p r c Hp Hr Hc)
    as (inner & colors & Hget & Hinner & Hsample).
  exists inner, colors. split; [done |]. split; [done |].
  destruct (Hres r c Hr Hc) as (cmap & Hcmap & HN).
  rewrite (get_palette_ok e _ _ _ Hcmap) in Hsample. injection Hsample as <-.
  rewrite length_map, range_length, HN. lia.
Qed.

Lemma catalog_list_has_c_colors_witness :
  ∃ p inner colors,
    palettes (Stub.engine ["X"]) = Ok p
    ∧ Box.getitem p "X" = Some (BoxGraded inner)
    ∧ Box.getitem inner "n07" = Some colors
    ∧ Z.of_nat (length colors) = 7.
Proof.
  destruct (palettes (Stub.engine ["X"])) as [p |] eqn:Hp;
    [| by vm_compute in Hp].
  destruct (catalog_list_has_c_colors (Stub.engine ["X"]) p "X" 7
              (StubFacts.grey_resamples_listed ["X"]) Hp)
    as (inner & colors & Hget & Hinner & Hlen); [by left | lia |].
  by exists p, inner, colors.
Defined.

(** X7: with an engine whose [rgb2hex] writes a marker followed by six
    hexadecimal digits, every colour the built catalog stores is a
    six-character hexadecimal string, under every name except a
    hand-authored ["ndwi"] (one that the engine does not enumerate). *)
Theorem catalog_colors_hex_except_ndwi {rgba : Type} (e : Engine rgba) p
    (name : string) :
  formats_hex e → palettes e = Ok p →
  name ∈ list_colormaps e ∨ name ≠ "ndwi" →
  (∀ colors, Box.getitem p name = Some (BoxFlat colors) →
     Forall (fun s => is_hex_color s = true) colors)
  ∧ (∀ inner (k : string) colors,
       Box.getitem p name = Some (BoxGraded inner) →
       Box.getitem inner k = Some colors →
       Forall (fun s => is_hex_color s = true) colors).
Proof.
  intros Hfmt Hp Hname.
  destruct (decide (name ∈ list_colormaps e)) as [Hin | Hout].
  - split.
    + intros colors Hflat.
      destruct (palettes_listed e p name Hp Hin) as (cd & _ & Hget).
      rewrite Hget in Hflat. discriminate.
    + intros inner k colors Hget Hk.
      by apply (engine_entries_hex e p name inner k colors).
  - destruct Hname as [Hin | Hne]; [done |].
    rewrite (palettes_unlisted e p name Hp Hout).
    pose proof ndvi_dem_hex as [Hndvi Hdem]%Forall_app.
    unfold __palette_dict_literal.
    destruct (decide (name = "dem")) as [-> | Hdem'];
      [rewrite lookup_insert_eq; simpl; split; [by intros ? [= <-] | done] |].
    rewrite lookup_insert_ne, lookup_insert_ne by done.
    destruct (decide (name = "ndvi")) as [-> | Hndvi'];
      [rewrite lookup_insert_eq; simpl; split; [by intros ? [= <-] | done] |].
    rewrite lookup_insert_ne, lookup_empty by done. by split.
Qed.

Lemma catalog_colors_hex_except_ndwi_witness :
  ∃ p, palettes (Stub.engine ["X"]) = Ok p
    ∧ ∀ inner (k : string) colors,
        Box.getitem p "X" = Some (BoxGraded inner) →
        Box.getitem inner k = Some colors →
        Forall (fun s => is_hex_color s = true) colors.
Proof.
  destruct (palettes (Stub.engine ["X"])) as [p |] eqn:Hp;
    [| by vm_compute in Hp].
  exists p. split; [done |].
  apply (catalog_colors_hex_except_ndwi (Stub.engine ["X"]) p "X"
           (StubFacts.grey_formats_hex ["X"]) Hp).
  left. by left.
Defined.

(** ** The catalog does not depend on the enumeration order *)

Section OrderFacts.

Context {rgba : Type}.
Variables e1 e2 : Engine rgba.
Hypothesis Hlookup : get_cmap e1 = get_cmap e2.
Hypothesis Hformat : rgb2hex e1 = rgb2hex e2.

Lemma get_palette_ext cmap_name n_class :
  get_palette e1 cmap_name n_class = get_palette e2 cmap_name n_class.
Proof. unfold get_palette. by rewrite Hlookup, Hformat. Qed.

Lemma fill_color_dict_ext cmap_name counts m :
  fill_color_dict e1 cmap_name counts m = fill_color_dict e2 cmap_name counts m.
Proof.
  revert m. induction counts as [| i counts IH]; intros m; simpl; [done |].
  rewrite get_palette_ext.
  destruct (get_palette e2 (Some cmap_name) (Some i)); simpl; [apply IH | done].
Qed.

End OrderFacts.

(** X8: the built catalog depends on which names the engine enumerates,
    not on their order or on repetitions: two engines with the same lookup
    and the same formatter that enumerate the same names build the same
    catalog. *)
Theorem catalog_ignores_enumeration_order {rgba : Type} (e1 e2 : Engine rgba) p :
  same_ramps e1 e2 → palettes e1 = Ok p → palettes e2 = Ok p.
Proof.
  intros (Hlookup & Hformat & Hnames) Hp.
  destruct (palettes_total e2) as [p2 Hp2].
  { intros r c Hr Hc. apply Hnames in Hr.
    destruct (palettes_listed_count e1 p r c Hp Hr Hc) as (_ & colors & _ & _ & Hs).
    exists colors. by rewrite <- (get_palette_ext e1 e2 Hlookup Hformat). }
  rewrite Hp2. f_equal.
  destruct (palettes_inv e1 p Hp) as (d1 & Hd1 & ->).
  destruct (palettes_inv e2 p2 Hp2) as (d2 & Hd2 & ->).
  f_equal. apply map_eq. intros k. unfold __palette_dict in Hd1, Hd2.
  destruct (decide (k ∈ list_colormaps e1)) as [Hin | Hout].
  - destruct (fill_palette_dict_visited e1 _ _ _ k (enumerate_index _) Hd1)
      as (cd1 & Hcd1 & ->); [by rewrite enumerate_snd |].
    destruct (fill_palette_dict_visited e2 _ _ _ k (enumerate_index _) Hd2)
      as (cd2 & Hcd2 & ->); [rewrite enumerate_snd; by apply Hnames |].
    rewrite (fill_color_dict_ext e1 e2 Hlookup Hformat) in Hcd1. congruence.
  - rewrite (fill_palette_dict_other e1 _ _ _ k Hd1) by by rewrite enumerate_snd.
    rewrite (fill_palette_dict_other e2 _ _ _ k Hd2); [done |].
    rewrite enumerate_snd. by rewrite <- Hnames.
Qed.

Lemma catalog_ignores_enumeration_order_witness :
  ∃ p, palettes (listing_engine ["X"; "Y"] ["X"; "Y"]) = Ok p
    ∧ palettes (listing_engine ["Y"; "X"; "Y"] ["X"; "Y"]) = Ok p.
Proof.
  destruct (palettes (listing_engine ["X"; "Y"] ["X"; "Y"])) as [p |] eqn:Hp;
    [| by vm_compute in Hp].
  exists p. split; [done |].
  apply (catalog_ignores_enumeration_order
           (listing_engine ["X"; "Y"] ["X"; "Y"])
           (listing_engine ["Y"; "X"; "Y"] ["X"; "Y"]) p); [| done].
  split; [done |]. split; [done |].
  intros r. simpl. rewrite !elem_of_cons, elem_of_nil. tauto.
Defined.

(** ** The all-ramps legend: its labels *)

Section PlotMoreFacts.

Context {F : Type} `{FloatOps F} {rgba : Type}.
Variable e : Engine rgba.

(** The labels the first loop writes, one per pair, in order. *)
Lemma draw_rows_texts nrows gradient (pairs : list (nat * string))
    (fig fig' : Plt.Figure F) :
  Plt.draw_rows e nrows gradient pairs fig = Ok fig' →
  Plt.texts fig' =
    (Plt.texts fig ++ ((fun p => label nrows p.1 p.2) <$> pairs))%list.
Proof.
  revert fig. induction pairs as [| [ax name] pairs IH]; intros fig Hrun.
  - injection Hrun as <-. simpl. by rewrite (right_id_L [] (++)%list).
  - rewrite draw_rows_cons in Hrun.
    destruct (get_cmap e (Some name) None) as [cmap |]; simpl in Hrun; [| done].
    rewrite fmap_cons. unfold label at 1. simpl.
    destruct (row_bounds nrows ax) as [[[pos0 pos1] pos2] pos3].
    rewrite (IH _ Hrun). simpl. by rewrite <- (assoc_L (++)%list).
Qed.

Variables width height : F.

Lemma plot_colormaps_draws fig :
  Plt.plot_colormaps e width height = Ok fig →
  Plt.draw_rows e (length (list_colormaps e)) (2%nat, 256%nat)
    (Py.enumerate (list_colormaps e))
    (stacked width height (length (list_colormaps e))) = Ok fig.
Proof.
  intros Hplot. pose proof (plot_colormaps_inv e width height fig Hplot)
    as (Hlen & _ & Hax & _).
  revert Hplot. rewrite plot_colormaps_cases.
  destruct (figsize_ok width _); [| done].
  destruct (length (list_colormaps e)) as [| [| n]] eqn:Hn; [done | done |].
  cbv beta iota zeta. rewrite <- Hn.
  intros (fig1 & Hrun & [= <-])%bind_Ok_inv.
  unfold Py.enumerate. rewrite Hrun. f_equal. symmetry. apply axis_off_again.
  apply (draw_rows_spec e _ _ _ []) in Hrun as (Hax1 & _); [| done].
  rewrite Hax1. by apply Forall_fmap, Forall_true.
Qed.

End PlotMoreFacts.

(** X11: in the figure that [plot_colormaps] shows, the labels are, in
    enumeration order, the ramp names at font size 12, each placed 0.01 to
    the left of its row and at half the height of that row, and every row
    has its axis decorations off. *)
Theorem plot_colormaps_labels {F : Type} `{FloatOps F} {rgba : Type}
    (e : Engine rgba) (width height : F) fig :
  Plt.plot_colormaps e width height = Ok fig →
  Plt.texts fig =
    (fun p => label (length (list_colormaps e)) p.1 p.2)
      <$> Py.enumerate (list_colormaps e)
  ∧ Forall (fun a => Plt.axis_on a = false) (Plt.axes fig).
Proof.
  intros Hplot. split.
  - apply plot_colormaps_draws in Hplot. by apply draw_rows_texts in Hplot.
  - destruct (plot_colormaps_inv e width height fig Hplot) as (_ & _ & -> & _).
    by apply Forall_fmap, Forall_true.
Qed.

Lemma plot_colormaps_labels_witness :
  ∃ fig, Plt.plot_colormaps (Stub.engine ["X"; "Y"]) (8 # 1)%Q (4 # 10)%Q = Ok fig
    ∧ Plt.texts fig = [label 2 0 "X"; label 2 1 "Y"]
    ∧ Forall (fun a => Plt.axis_on a = false) (Plt.axes fig).
Proof.
  destruct (Plt.plot_colormaps (Stub.engine ["X"; "Y"]) (8 # 1)%Q (4 # 10)%Q)
    as [fig |] eqn:Hplot; [| by vm_compute in Hplot].
  exists fig. split; [done |].
  by apply (plot_colormaps_labels (Stub.engine ["X"; "Y"]) (8 # 1)%Q (4 # 10)%Q).
Defined.
